(** * register_account: account registration with Let's Encrypt

    A shallow embedding of [cmd/register_account/register_account.go].
    The file exists in two shapes, both a single [main]:

    - the key-only program, which writes the account key as a bare PEM
      file and then registers the account ([KeyOnly.main]);
    - the credentials program, which registers first and then writes a
      JSON record holding the account URI and the PEM key
      ([Credentials.main]).

    Everything [main] reaches outside of itself (the mail parser, the
    key generator, the DER and PEM encoders, the JSON encoder, the file
    system and the ACME client) is a field of a [World]; each call that
    consumes entropy, touches the disk or goes to the network is
    recorded as an [Event], in program order.  A call of
    [motmedelLog.LogFatalWithExitingMessage] logs and ends the process,
    so it ends the run with [Fatal]. *)

From Stdlib Require Import String List ZArith Bool Lia.
From Stdlib Require Import Strings.Byte Strings.Ascii.
Import ListNotations.
Local Open Scope string_scope.

(** ** Go values *)

(** A Go [error] that is not nil, by its message. *)
Definition error := string.

(** A Go [[]byte]. *)
Definition bytes := list byte.

(** A Go [(T, error)] pair of which exactly one side is set. *)
Inductive result (T : Type) : Type :=
| Ok (v : T)
| Err (err : error).
Arguments Ok {T} v.
Arguments Err {T} err.

(** The value of an [any] as the program builds it: a string, or a
    slice of strings ([[]any{contactAddress, directoryUrl}]). *)
Inductive any : Type :=
| AnyString (s : string)
| AnySlice (l : list string).

(** [elliptic.Curve]: the named curves of [crypto/elliptic]. *)
Inductive Curve : Type := P224 | P256 | P384 | P521.

(** [ecdsa.PrivateKey]: the public point on [Curve] and the private
    scalar [D]. *)
Record PrivateKey : Type := {
  Curve_ : Curve;
  X : Z;
  Y : Z;
  D : Z
}.

(** [pem.Block], without headers. *)
Record Block : Type := {
  Type_ : string;
  Bytes : bytes
}.

Module acme.

(** [acme.Account]: the fields the program sets or reads. *)
Record Account : Type := {
  URI : string;
  Contact : list string
}.

(** [acme.Client]: the fields the program sets. *)
Record Client : Type := {
  Key : PrivateKey;
  DirectoryURL : string
}.

(** [acme.AcceptTOS]: the prompt that agrees to any terms of service. *)
Definition AcceptTOS (tosURL : string) : bool := true.

End acme.

(** The error values of [motmedelErrors] that the program builds. *)
Inductive MotmedelError : Type :=
| InputError (Message : string) (Cause : error) (Input : any)
| CauseError (Message : string) (Cause : error).

(** A JSON document, as far as the program produces one. *)
#[warnings="-register-all"]
Inductive JSON : Type :=
| JString (s : string)
| JObject (members : list (string * JSON)).

Module letsencryptUtilsTypes.

(** Modelled from the spec: the struct [AccountCredentials] of
    [letsencrypt_utils/pkg/types], whose declaration is not part of
    the sources at hand.  The spec gives the persisted format as a
    JSON object with the members [uri] and [key], in this order. *)
Record AccountCredentials : Type := {
  Uri : string;
  Key : string
}.

(** Modelled from the spec: the JSON object that [encoding/json]
    derives from the struct's field tags. *)
Definition to_json (c : AccountCredentials) : JSON :=
  JObject [("uri", JString (Uri c)); ("key", JString (Key c))].

End letsencryptUtilsTypes.

(** [0600]: read and write for the owner, nothing for group and others. *)
Definition mode_0600 : Z := 6 * 8 ^ 2 + 0 * 8 + 0.

(** ** The world outside of [main] *)

Record World : Type := {
  (** [mail.ParseAddress]: the returned error, [None] for nil. *)
  ParseAddress : string -> option error;
  (** [ecdsa.GenerateKey c rand.Reader], as it answers in this run. *)
  GenerateKey : Curve -> result PrivateKey;
  (** [x509.MarshalECPrivateKey]. *)
  MarshalECPrivateKey : PrivateKey -> result bytes;
  (** [pem.EncodeToMemory]. *)
  EncodeToMemory : Block -> bytes;
  (** [json.Marshal], from the JSON document of the marshalled value. *)
  Marshal : JSON -> result bytes;
  (** [os.WriteFile name data perm]: the returned error, [None] for nil. *)
  WriteFile : string -> bytes -> Z -> option error;
  (** [Register] of [acme.Client]: a pointer that may be nil, and an
      error that may be nil. *)
  Register : acme.Client -> acme.Account -> (string -> bool) ->
             option acme.Account * option error;
  (** [acme.LetsEncryptURL]. *)
  LetsEncryptURL : string
}.

(** ** Runs *)

(** What a run does to the outside, in program order. *)
Inductive Event : Type :=
| EvGenerateKey (c : Curve) (r : result PrivateKey)
| EvWriteFile (name : string) (data : bytes) (perm : Z) (err : option error)
| EvRegister (client : acme.Client) (acct : acme.Account)
             (prompt : string -> bool)
             (r : option acme.Account * option error).

(** How a computation ends: with a value, or in
    [LogFatalWithExitingMessage message err]. *)
Inductive Exit (A : Type) : Type :=
| Returned (a : A)
| Fatal (message : string) (err : option MotmedelError).
Arguments Returned {A} a.
Arguments Fatal {A} message err.

Definition Run (A : Type) : Type := (list Event * Exit A)%type.

Definition ret {A : Type} (a : A) : Run A := ([], Returned a).

Definition bind {A B : Type} (m : Run A) (k : A -> Run B) : Run B :=
  match m with
  | (t, Returned a) => let '(t', o) := k a in ((t ++ t')%list, o)
  | (t, Fatal message err) => (t, Fatal message err)
  end.

Declare Scope run_scope.
Delimit Scope run_scope with run.
Notation "x <- m ;; k" := (bind m (fun x => k))
  (at level 61, m at next level, right associativity) : run_scope.
Notation "m ;; k" := (bind m (fun _ => k))
  (at level 61, right associativity) : run_scope.
Local Open Scope run_scope.

Definition LogFatalWithExitingMessage {A : Type}
    (message : string) (err : option MotmedelError) : Run A :=
  ([], Fatal message err).

Definition trace {A : Type} (r : Run A) : list Event := fst r.
Definition exit {A : Type} (r : Run A) : Exit A := snd r.

Section Calls.

Variable w : World.

Definition ecdsa_GenerateKey (c : Curve) : Run (result PrivateKey) :=
  let r := GenerateKey w c in ([EvGenerateKey c r], Returned r).

Definition os_WriteFile (name : string) (data : bytes) (perm : Z)
  : Run (option error) :=
  let err := WriteFile w name data perm in
  ([EvWriteFile name data perm err], Returned err).

Definition client_Register (client : acme.Client) (acct : acme.Account)
    (prompt : string -> bool) : Run (option acme.Account * option error) :=
  let r := Register w client acct prompt in
  ([EvRegister client acct prompt r], Returned r).

End Calls.

(** ** The key-only program (lines 19-108) *)

Module KeyOnly.

(** The flags after [flag.Parse]. *)
Record Flags : Type := {
  emailAddress : string;
  keyOutputPath : string;
  useStaging : bool
}.

(** The flags when the command line gives none. *)
Definition default_flags : Flags :=
  {| emailAddress := EmptyString;
     keyOutputPath := "account_key.pem";
     useStaging := false |}.

Definition main (w : World) (fl : Flags) : Run unit :=
  let emailAddress := emailAddress fl in
  let keyOutputPath := keyOutputPath fl in
  let useStaging := useStaging fl in
  (if emailAddress =? EmptyString then
     LogFatalWithExitingMessage "The email address is empty." None
   else ret tt) ;;
  match ParseAddress w emailAddress with
  | Some err =>
      let msg := "The email address is invalid." in
      LogFatalWithExitingMessage msg
        (Some (InputError msg err (AnyString emailAddress)))
  | None => ret tt
  end ;;
  r <- ecdsa_GenerateKey w P256 ;;
  key <- match r with
         | Err err =>
             let msg := "An error occurred when generating an account key." in
             LogFatalWithExitingMessage msg (Some (CauseError msg err))
         | Ok key => ret key
         end ;;
  keyDerData <- match MarshalECPrivateKey w key with
                | Err err =>
                    let msg := "An error occurred when marshalling the account key data." in
                    LogFatalWithExitingMessage msg (Some (CauseError msg err))
                | Ok keyDerData => ret keyDerData
                end ;;
  let keyPemData :=
    EncodeToMemory w {| Type_ := "EC PRIVATE KEY"; Bytes := keyDerData |} in
  werr <- os_WriteFile w keyOutputPath keyPemData mode_0600 ;;
  match werr with
  | Some err =>
      let msg := "An error occurred when writing the account key PEM data to a file." in
      LogFatalWithExitingMessage msg
        (Some (InputError msg err (AnyString keyOutputPath)))
  | None => ret tt
  end ;;
  let directoryUrl :=
    if useStaging then "https://acme-staging-v02.api.letsencrypt.org/directory"
    else LetsEncryptURL w in
  let contactAddress := "mailto:" ++ emailAddress in
  let client := {| acme.Key := key; acme.DirectoryURL := directoryUrl |} in
  r <- client_Register w client
         {| acme.URI := EmptyString; acme.Contact := [contactAddress] |}
         acme.AcceptTOS ;;
  match snd r with
  | Some err =>
      let msg := "An error occurred when registering the account." in
      LogFatalWithExitingMessage msg
        (Some (InputError msg err (AnySlice [contactAddress; directoryUrl])))
  | None => ret tt
  end.

End KeyOnly.

(** ** The credentials program (lines 129-231) *)

Module Credentials.

(** The flags after [flag.Parse]. *)
Record Flags : Type := {
  emailAddress : string;
  accountCredentialsOutPath : string;
  useStaging : bool
}.

(** The flags when the command line gives none. *)
Definition default_flags : Flags :=
  {| emailAddress := EmptyString;
     accountCredentialsOutPath := "account_credentials.json";
     useStaging := false |}.

Definition main (w : World) (fl : Flags) : Run unit :=
  let emailAddress := emailAddress fl in
  let accountCredentialsOutPath := accountCredentialsOutPath fl in
  let useStaging := useStaging fl in
  (if emailAddress =? EmptyString then
     LogFatalWithExitingMessage "The email address is empty." None
   else ret tt) ;;
  match ParseAddress w emailAddress with
  | Some err =>
      let msg := "The email address is invalid." in
      LogFatalWithExitingMessage msg
        (Some (InputError msg err (AnyString emailAddress)))
  | None => ret tt
  end ;;
  r <- ecdsa_GenerateKey w P256 ;;
  key <- match r with
         | Err err =>
             let msg := "An error occurred when generating an account key." in
             LogFatalWithExitingMessage msg (Some (CauseError msg err))
         | Ok key => ret key
         end ;;
  keyDerData <- match MarshalECPrivateKey w key with
                | Err err =>
                    let msg := "An error occurred when marshalling the account key data." in
                    LogFatalWithExitingMessage msg (Some (CauseError msg err))
                | Ok keyDerData => ret keyDerData
                end ;;
  let keyPemData :=
    EncodeToMemory w {| Type_ := "EC PRIVATE KEY"; Bytes := keyDerData |} in
  let directoryUrl :=
    if useStaging then "https://acme-staging-v02.api.letsencrypt.org/directory"
    else LetsEncryptURL w in
  let contactAddress := "mailto:" ++ emailAddress in
  let client := {| acme.Key := key; acme.DirectoryURL := directoryUrl |} in
  r <- client_Register w client
         {| acme.URI := EmptyString; acme.Contact := [contactAddress] |}
         acme.AcceptTOS ;;
  let '(account, err) := r in
  match err with
  | Some err =>
      let msg := "An error occurred when registering the account." in
      LogFatalWithExitingMessage msg
        (Some (InputError msg err (AnySlice [contactAddress; directoryUrl])))
  | None => ret tt
  end ;;
  account <- match account with
             | None => LogFatalWithExitingMessage "The account is nil." None
             | Some account => ret account
             end ;;
  let accountUri := acme.URI account in
  (if accountUri =? EmptyString then
     LogFatalWithExitingMessage "The account URI is empty." None
   else ret tt) ;;
  let accountCredentials :=
    {| letsencryptUtilsTypes.Uri := accountUri;
       letsencryptUtilsTypes.Key := string_of_list_byte keyPemData |} in
  accountCredentialsData <-
    match Marshal w (letsencryptUtilsTypes.to_json accountCredentials) with
    | Err err =>
        let msg := "An error occurred when marshalling the account credentials." in
        LogFatalWithExitingMessage msg (Some (CauseError msg err))
    | Ok data => ret data
    end ;;
  werr <- os_WriteFile w accountCredentialsOutPath accountCredentialsData mode_0600 ;;
  match werr with
  | Some err =>
      let msg := "An error occurred when writing the account credentials data to disk." in
      LogFatalWithExitingMessage msg
        (Some (InputError msg err (AnyString accountCredentialsOutPath)))
  | None => ret tt
  end.

End Credentials.

(** ** Either program *)

(** One invocation: which of the two programs, with its flags. *)
Inductive Program : Type :=
| KeyOnlyProgram (fl : KeyOnly.Flags)
| CredentialsProgram (fl : Credentials.Flags).

Definition run (w : World) (p : Program) : Run unit :=
  match p with
  | KeyOnlyProgram fl => KeyOnly.main w fl
  | CredentialsProgram fl => Credentials.main w fl
  end.

Definition email_flag (p : Program) : string :=
  match p with
  | KeyOnlyProgram fl => KeyOnly.emailAddress fl
  | CredentialsProgram fl => Credentials.emailAddress fl
  end.

Definition staging_flag (p : Program) : bool :=
  match p with
  | KeyOnlyProgram fl => KeyOnly.useStaging fl
  | CredentialsProgram fl => Credentials.useStaging fl
  end.

(** ** What [main] hands to the world *)

Section Handed.

Variable w : World.

(** The client and the account that [main] hands to [Register]. *)
Definition client_of (key : PrivateKey) (useStaging : bool) : acme.Client :=
  {| acme.Key := key;
     acme.DirectoryURL :=
       if useStaging then "https://acme-staging-v02.api.letsencrypt.org/directory"
       else LetsEncryptURL w |}.

Definition account_of (emailAddress : string) : acme.Account :=
  {| acme.URI := EmptyString; acme.Contact := ["mailto:" ++ emailAddress] |}.

Definition pem_of (keyDerData : bytes) : bytes :=
  EncodeToMemory w {| Type_ := "EC PRIVATE KEY"; Bytes := keyDerData |}.

End Handed.

(** ** Reading a trace *)

Definition is_key_generation (e : Event) : bool :=
  match e with EvGenerateKey _ _ => true | _ => false end.

Definition is_network_call (e : Event) : bool :=
  match e with EvRegister _ _ _ _ => true | _ => false end.

Definition is_write (e : Event) : bool :=
  match e with EvWriteFile _ _ _ _ => true | _ => false end.

Definition key_generations (t : list Event) : nat :=
  length (filter is_key_generation t).

Definition network_calls (t : list Event) : nat :=
  length (filter is_network_call t).

Definition write_attempts (t : list Event) : nat :=
  length (filter is_write t).

(** The files that the run has put on disk: the writes that returned no
    error, as (name, contents, permission). *)
Fixpoint files_written (t : list Event) : list (string * bytes * Z) :=
  match t with
  | [] => []
  | EvWriteFile name data perm None :: t' => (name, data, perm) :: files_written t'
  | _ :: t' => files_written t'
  end.

(** The messages of the calls of [LogFatalWithExitingMessage]: six in the
    key-only program, nine in the credentials program, ten in all. *)
Definition fatal_messages : list string :=
  [ "The email address is empty.";
    "The email address is invalid.";
    "An error occurred when generating an account key.";
    "An error occurred when marshalling the account key data.";
    "An error occurred when writing the account key PEM data to a file.";
    "An error occurred when registering the account.";
    "The account is nil.";
    "The account URI is empty.";
    "An error occurred when marshalling the account credentials.";
    "An error occurred when writing the account credentials data to disk." ].

(** The account of a registration that returned without an error is nil,
    or its URI is empty (lines 203 and 208). *)
Definition uri_missing (account : option acme.Account) : bool :=
  match account with
  | None => true
  | Some account => acme.URI account =? EmptyString
  end.

(** ** Sample worlds *)

(** The base point of P-256, the public key of the private scalar 1. *)
Definition sample_key : PrivateKey :=
  {| Curve_ := P256;
     X := 0x6B17D1F2E12C4247F8BCE6E563A440F277037D812DEB33A0F4A13945D898C296;
     Y := 0x4FE342E2FE1A7F9B8EE7EB4A7C0F9E162BCE33576B315ECECBB6406837BF51F5;
     D := 1 |}.

(** The DER bytes that the sample worlds answer with. *)
Definition sample_der : bytes := [x30; x77; x02; x01; x01].

Fixpoint contains_at (s : string) : bool :=
  match s with
  | EmptyString => false
  | String c s' => if Ascii.eqb c "@"%char then true else contains_at s'
  end.

(** A stand-in for a JSON encoder: members in order, no escaping. *)
Definition quote : string := String (Ascii.ascii_of_nat 34) EmptyString.

Definition render_member (m : string * JSON) : string :=
  match m with
  | (k, JString s) => quote ++ k ++ quote ++ ":" ++ quote ++ s ++ quote
  | (k, JObject _) => quote ++ k ++ quote ++ ":{}"
  end.

Definition render (j : JSON) : string :=
  match j with
  | JString s => quote ++ s ++ quote
  | JObject ms => "{" ++ String.concat "," (map render_member ms) ++ "}"
  end.

(** A world in which every call succeeds; the CA answers with the
    account [answer]. *)
Definition world_with (answer : option acme.Account * option error) : World :=
  {| ParseAddress := fun s =>
       if contains_at s then None else Some "mail: missing '@' or angle-addr";
     GenerateKey := fun c =>
       Ok {| Curve_ := c; X := X sample_key; Y := Y sample_key; D := D sample_key |};
     MarshalECPrivateKey := fun k => Ok sample_der;
     EncodeToMemory := fun b =>
       (list_byte_of_string ("-----BEGIN " ++ Type_ b ++ "-----")
        ++ Bytes b
        ++ list_byte_of_string ("-----END " ++ Type_ b ++ "-----"))%list;
     Marshal := fun j => Ok (list_byte_of_string (render j));
     WriteFile := fun _ _ _ => None;
     Register := fun _ _ _ => answer;
     LetsEncryptURL := "https://acme-v02.api.letsencrypt.org/directory" |}.

Definition sample_account (uri : string) : acme.Account :=
  {| acme.URI := uri; acme.Contact := ["mailto:ops@example.com"] |}.

(** The CA creates the account. *)
Definition world_ok : World :=
  world_with
    (Some (sample_account "https://acme-staging-v02.api.letsencrypt.org/acme/acct/123"),
     None).

(** The CA rejects the request. *)
Definition world_rejected : World :=
  world_with (None, Some "429 urn:ietf:params:acme:error:rateLimited").

(** The client reports success with an account that has no URI. *)
Definition world_empty_uri : World :=
  world_with (Some (sample_account EmptyString), None).

(** The client reports success with no account at all. *)
Definition world_nil_account : World :=
  world_with (None, None).

Definition ops_production : Credentials.Flags :=
  {| Credentials.emailAddress := "ops@example.com";
     Credentials.accountCredentialsOutPath := "account_credentials.json";
     Credentials.useStaging := false |}.

Definition ops_key_only : KeyOnly.Flags :=
  {| KeyOnly.emailAddress := "ops@example.com";
     KeyOnly.keyOutputPath := "account_key.pem";
     KeyOnly.useStaging := true |}.

Definition ops_credentials : Credentials.Flags :=
  {| Credentials.emailAddress := "ops@example.com";
     Credentials.accountCredentialsOutPath := "account_credentials.json";
     Credentials.useStaging := true |}.

(** ** Reading a failure *)

(** The messages that go with a nil error, with a [CauseError] and with
    an [InputError]. *)
Definition messages_without_error : list string :=
  [ "The email address is empty.";
    "The account is nil.";
    "The account URI is empty." ].

Definition messages_with_cause_error : list string :=
  [ "An error occurred when generating an account key.";
    "An error occurred when marshalling the account key data.";
    "An error occurred when marshalling the account credentials." ].

Definition messages_with_input_error : list string :=
  [ "The email address is invalid.";
    "An error occurred when writing the account key PEM data to a file.";
    "An error occurred when registering the account.";
    "An error occurred when writing the account credentials data to disk." ].

(** ** More sample worlds *)

(** The random source fails. *)
Definition world_no_entropy : World :=
  {| ParseAddress := ParseAddress world_ok;
     GenerateKey := fun _ => Err "unexpected EOF";
     MarshalECPrivateKey := MarshalECPrivateKey world_ok;
     EncodeToMemory := EncodeToMemory world_ok;
     Marshal := Marshal world_ok;
     WriteFile := WriteFile world_ok;
     Register := Register world_ok;
     LetsEncryptURL := LetsEncryptURL world_ok |}.

(** The disk takes no file. *)
Definition world_disk_full : World :=
  {| ParseAddress := ParseAddress world_ok;
     GenerateKey := GenerateKey world_ok;
     MarshalECPrivateKey := MarshalECPrivateKey world_ok;
     EncodeToMemory := EncodeToMemory world_ok;
     Marshal := Marshal world_ok;
     WriteFile := fun _ _ _ => Some "no space left on device";
     Register := Register world_ok;
     LetsEncryptURL := LetsEncryptURL world_ok |}.

(** An address that the sample parser refuses. *)
Definition no_at_key_only : KeyOnly.Flags :=
  {| KeyOnly.emailAddress := "ops.example.com";
     KeyOnly.keyOutputPath := "account_key.pem";
     KeyOnly.useStaging := false |}.

(** Takes a membership in a short trace apart, event by event. *)
Ltac which_event :=
  cbn [In] in *;
  repeat match goal with
    | H : _ \/ _ |- _ => destruct H
    | H : False |- _ => destruct H
    end;
  try discriminate.

(** Turns the outcome of a string comparison into an equation. *)
Ltac string_tests :=
  repeat match goal with
    | H : (_ =? _) = false |- _ => apply String.eqb_neq in H
    | H : (_ =? _) = true |- _ => apply String.eqb_eq in H
    end.

(** ** Case analysis of a run *)

(** Splits on the answer of the next call that the program looks at,
    outermost program step first. *)
Ltac next_answer :=
  match goal with
  | |- context [match ?x with _ => _ end] =>
      lazymatch x with
      | context [match _ with _ => _ end] => fail
      | _ => destruct x eqn:?
      end
  end.

(** Names the directory URL, so that the staging flag is not split on. *)
Ltac name_directory_url :=
  match goal with
  | |- context [if ?b then ?staging else LetsEncryptURL ?w] =>
      let u := fresh "directoryUrl" in
      set (u := if b then staging else LetsEncryptURL w)
  end.

Ltac run_cases :=
  cbv [run KeyOnly.main Credentials.main bind ret LogFatalWithExitingMessage
       ecdsa_GenerateKey os_WriteFile client_Register trace exit fst snd];
  try name_directory_url;
  repeat (next_answer; cbn [app fst snd]).

(** ** The shape of a run *)

Section Shapes.

Variable w : World.

(** Both programs stop at once on an email address that is empty. *)
Lemma empty_email_run (p : Program) :
  email_flag p = EmptyString ->
  run w p = ([], Fatal "The email address is empty." None).
Proof.
  destruct p as [fl | fl]; cbn [email_flag run]; intros E.
  - unfold KeyOnly.main. rewrite E. reflexivity.
  - unfold Credentials.main. rewrite E. reflexivity.
Qed.

(** And on one that the mail parser refuses. *)
Lemma refused_email_run (p : Program) (err : error) :
  email_flag p <> EmptyString ->
  ParseAddress w (email_flag p) = Some err ->
  run w p = ([], Fatal "The email address is invalid."
                   (Some (InputError "The email address is invalid." err
                            (AnyString (email_flag p))))).
Proof.
  destruct p as [fl | fl]; cbn [email_flag run]; intros N E.
  - unfold KeyOnly.main. apply String.eqb_neq in N. rewrite N, E. reflexivity.
  - unfold Credentials.main. apply String.eqb_neq in N. rewrite N, E. reflexivity.
Qed.

(** The key-only program reaches the network only after the key file is
    on disk. *)
Lemma key_only_registration (fl : KeyOnly.Flags) client acct prompt r :
  In (EvRegister client acct prompt r) (trace (KeyOnly.main w fl)) ->
  exists key der,
    KeyOnly.emailAddress fl <> EmptyString /\
    ParseAddress w (KeyOnly.emailAddress fl) = None /\
    GenerateKey w P256 = Ok key /\
    MarshalECPrivateKey w key = Ok der /\
    client = client_of w key (KeyOnly.useStaging fl) /\
    acct = account_of (KeyOnly.emailAddress fl) /\
    prompt = acme.AcceptTOS /\
    r = Register w client acct prompt /\
    trace (KeyOnly.main w fl) =
      [EvGenerateKey P256 (Ok key);
       EvWriteFile (KeyOnly.keyOutputPath fl) (pem_of w der) mode_0600 None;
       EvRegister client acct prompt r].
Proof.
  run_cases; cbn [In]; intros H.
  all: repeat match goal with
         | H : _ \/ _ |- _ => destruct H
         | H : False |- _ => destruct H
         end; try discriminate.
  all: match goal with H : EvRegister _ _ _ _ = EvRegister _ _ _ _ |- _ =>
         inversion H; subst; clear H end.
  all: repeat match goal with
         | H : (_ =? _) = false |- _ => apply String.eqb_neq in H
         end.
  all: do 2 eexists; unfold client_of, account_of, pem_of;
       repeat split; try eassumption; try reflexivity;
       symmetry; eassumption.
Qed.

(** The credentials program reaches the network right after the key
    generation; whatever follows the registration is no second call. *)
Lemma credentials_registration (fl : Credentials.Flags) client acct prompt r :
  In (EvRegister client acct prompt r) (trace (Credentials.main w fl)) ->
  exists key der rest,
    Credentials.emailAddress fl <> EmptyString /\
    ParseAddress w (Credentials.emailAddress fl) = None /\
    GenerateKey w P256 = Ok key /\
    MarshalECPrivateKey w key = Ok der /\
    client = client_of w key (Credentials.useStaging fl) /\
    acct = account_of (Credentials.emailAddress fl) /\
    prompt = acme.AcceptTOS /\
    r = Register w client acct prompt /\
    trace (Credentials.main w fl) =
      EvGenerateKey P256 (Ok key) :: EvRegister client acct prompt r :: rest /\
    key_generations rest = 0 /\
    network_calls rest = 0.
Proof.
  run_cases; cbn [In]; intros H.
  all: repeat match goal with
         | H : _ \/ _ |- _ => destruct H
         | H : False |- _ => destruct H
         end; try discriminate.
  all: match goal with H : EvRegister _ _ _ _ = EvRegister _ _ _ _ |- _ =>
         inversion H; subst; clear H end.
  all: repeat match goal with
         | H : (_ =? _) = false |- _ => apply String.eqb_neq in H
         end.
  all: do 3 eexists; unfold client_of, account_of;
       repeat split; try eassumption; try reflexivity;
       symmetry; eassumption.
Qed.

(** A run of the credentials program that returns has gone through every
    step, and its last step was the one write. *)
Lemma credentials_success (fl : Credentials.Flags) :
  exit (Credentials.main w fl) = Returned tt ->
  exists key der account data,
    GenerateKey w P256 = Ok key /\
    MarshalECPrivateKey w key = Ok der /\
    Register w (client_of w key (Credentials.useStaging fl))
      (account_of (Credentials.emailAddress fl)) acme.AcceptTOS
      = (Some account, None) /\
    acme.URI account <> EmptyString /\
    Marshal w
      (JObject [("uri", JString (acme.URI account));
                ("key", JString (string_of_list_byte (pem_of w der)))])
      = Ok data /\
    trace (Credentials.main w fl) =
      [EvGenerateKey P256 (Ok key);
       EvRegister (client_of w key (Credentials.useStaging fl))
         (account_of (Credentials.emailAddress fl)) acme.AcceptTOS
         (Some account, None);
       EvWriteFile (Credentials.accountCredentialsOutPath fl) data mode_0600 None].
Proof.
  run_cases; intros H; try discriminate.
  repeat match goal with
         | H : (_ =? _) = false |- _ => apply String.eqb_neq in H
         end.
  do 4 eexists. unfold client_of, account_of, pem_of.
  repeat split; try eassumption; reflexivity.
Qed.

(** A run of the credentials program that ends in a fatal exit has put
    nothing on disk. *)
Lemma credentials_failure (fl : Credentials.Flags) message err :
  exit (Credentials.main w fl) = Fatal message err ->
  files_written (trace (Credentials.main w fl)) = [].
Proof.
  run_cases; intros H; try discriminate; reflexivity.
Qed.

End Shapes.

(** The permission bits of [0600]: bit 8 (owner may read) and bit 7
    (owner may write), and no other. *)
Lemma mode_0600_bits (i : Z) :
  Z.testbit mode_0600 i = ((i =? 8) || (i =? 7))%Z.
Proof.
  destruct (Z_lt_le_dec i 0) as [Hneg | Hpos].
  - rewrite Z.testbit_neg_r by assumption.
    destruct (Z.eqb_spec i 8), (Z.eqb_spec i 7); try lia; reflexivity.
  - destruct (Z_lt_le_dec 8 i) as [Hbig | Hsmall].
    + rewrite Z.bits_above_log2; [ | vm_compute; discriminate | exact Hbig ].
      destruct (Z.eqb_spec i 8), (Z.eqb_spec i 7); try lia; reflexivity.
    + assert (H : (i = 0 \/ i = 1 \/ i = 2 \/ i = 3 \/ i = 4 \/ i = 5 \/
                   i = 6 \/ i = 7 \/ i = 8)%Z) by lia.
      repeat (destruct H as [H | H]; [ subst i; reflexivity | ]).
      subst i; reflexivity.
Qed.

(** ** C1: terms of service *)

(** C1, counterexample.  The claim has a caller who declines the terms of
    service and a run that then fails without touching the network.  The
    command line has no flag for such a decision: whatever the caller
    means, a run with the valid address ops@example.com goes to the
    network and returns. *)
Lemma terms_refusal_not_enforced :
  ParseAddress world_ok "ops@example.com" = None /\
  exit (Credentials.main world_ok ops_credentials) = Returned tt /\
  network_calls (trace (Credentials.main world_ok ops_credentials)) = 1 /\
  ~ (forall (w : World) (fl : Credentials.Flags) (acceptTermsOfService : bool),
       Credentials.emailAddress fl <> EmptyString ->
       ParseAddress w (Credentials.emailAddress fl) = None ->
       acceptTermsOfService = false ->
       (exists message err, exit (Credentials.main w fl) = Fatal message err) /\
       network_calls (trace (Credentials.main w fl)) = 0).
Proof.
  repeat split; try reflexivity.
  intros claim.
  destruct (claim world_ok ops_credentials false) as [_ calls];
    try reflexivity; try discriminate.
Qed.

(** C1, as amended.  The program takes no decision on the terms of
    service from its caller and has no failure for declined terms: every
    call of [Register] that a run makes passes [acme.AcceptTOS], which
    agrees to any terms URL, and a run that ends in a fatal exit ends in
    one of the ten messages of [fatal_messages].  A run whose email
    address passes both checks goes to the network once, provided that
    the key is generated and marshalled and, in the key-only program,
    written. *)
Theorem terms_always_accepted (w : World) (p : Program) :
  (forall client acct prompt r,
      In (EvRegister client acct prompt r) (trace (run w p)) ->
      prompt = acme.AcceptTOS /\ forall tosURL, prompt tosURL = true) /\
  (forall message err,
      exit (run w p) = Fatal message err -> In message fatal_messages) /\
  (forall key der,
      email_flag p <> EmptyString ->
      ParseAddress w (email_flag p) = None ->
      GenerateKey w P256 = Ok key ->
      MarshalECPrivateKey w key = Ok der ->
      match p with
      | KeyOnlyProgram fl =>
          WriteFile w (KeyOnly.keyOutputPath fl) (pem_of w der) mode_0600 = None
      | CredentialsProgram _ => True
      end ->
      network_calls (trace (run w p)) = 1).
Proof.
  split; [ | split ].
  - intros client acct prompt r H.
    assert (E : prompt = acme.AcceptTOS).
    { destruct p as [fl | fl]; cbn [run] in H.
      + destruct (key_only_registration w fl _ _ _ _ H)
          as (key & der & _ & _ & _ & _ & _ & _ & E & _). exact E.
      + destruct (credentials_registration w fl _ _ _ _ H)
          as (key & der & rest & _ & _ & _ & _ & _ & _ & E & _). exact E. }
    subst prompt. split; [ reflexivity | intros tosURL; reflexivity ].
  - intros message err.
    destruct p as [fl | fl]; run_cases; intros H; inversion H; subst;
      unfold fatal_messages; cbn [In]; tauto.
  - intros key der.
    destruct p as [fl | fl]; cbn [email_flag]; unfold pem_of; run_cases;
      intros N V G D W.
    all: repeat match goal with
           | H : (_ =? _) = true |- _ => apply String.eqb_eq in H
           end.
    all: try congruence; reflexivity.
Qed.

Lemma terms_always_accepted_witness :
  In (EvRegister (client_of world_ok sample_key true) (account_of "ops@example.com")
        acme.AcceptTOS (Register world_ok (client_of world_ok sample_key true)
                          (account_of "ops@example.com") acme.AcceptTOS))
     (trace (run world_ok (CredentialsProgram ops_credentials))) /\
  (acme.AcceptTOS = acme.AcceptTOS /\
   forall tosURL, acme.AcceptTOS tosURL = true).
Proof.
  assert (H : In (EvRegister (client_of world_ok sample_key true)
                    (account_of "ops@example.com") acme.AcceptTOS
                    (Register world_ok (client_of world_ok sample_key true)
                       (account_of "ops@example.com") acme.AcceptTOS))
                 (trace (run world_ok (CredentialsProgram ops_credentials)))).
  { vm_compute. right. left. reflexivity. }
  split; [ exact H | ].
  exact (proj1 (terms_always_accepted world_ok (CredentialsProgram ops_credentials))
           _ _ _ _ H).
Defined.

(** ** C2: what is on disk when a run fails *)

(** C2, counterexample.  The key-only program writes the key file before
    it registers: when the CA rejects the request, the run ends in a
    fatal exit and the key file is on disk. *)
Lemma key_file_left_after_failed_registration :
  exit (KeyOnly.main world_rejected ops_key_only) =
    Fatal "An error occurred when registering the account."
      (Some (InputError "An error occurred when registering the account."
               "429 urn:ietf:params:acme:error:rateLimited"
               (AnySlice ["mailto:ops@example.com";
                          "https://acme-staging-v02.api.letsencrypt.org/directory"]))) /\
  files_written (trace (KeyOnly.main world_rejected ops_key_only)) =
    [("account_key.pem", pem_of world_rejected sample_der, mode_0600)].
Proof.
  split; reflexivity.
Qed.

(** C2, as amended.  The credentials program writes all or nothing: a run
    that ends in a fatal exit has put nothing on disk, and a run that
    returns has put the one credentials file on disk, after a
    registration that returned an account with a URI.  The key-only
    program writes the key file before it goes to the network, so that a
    run whose registration fails leaves the key file on disk. *)
Theorem persistence_by_program (w : World) :
  (forall fl message err,
      exit (Credentials.main w fl) = Fatal message err ->
      files_written (trace (Credentials.main w fl)) = []) /\
  (forall fl,
      exit (Credentials.main w fl) = Returned tt ->
      exists key client acct account data,
        trace (Credentials.main w fl) =
          [EvGenerateKey P256 (Ok key);
           EvRegister client acct acme.AcceptTOS (Some account, None);
           EvWriteFile (Credentials.accountCredentialsOutPath fl) data
             mode_0600 None] /\
        acme.URI account <> EmptyString) /\
  (forall fl client acct prompt r,
      In (EvRegister client acct prompt r) (trace (KeyOnly.main w fl)) ->
      exists key der,
        trace (KeyOnly.main w fl) =
          [EvGenerateKey P256 (Ok key);
           EvWriteFile (KeyOnly.keyOutputPath fl) (pem_of w der) mode_0600 None;
           EvRegister client acct prompt r]).
Proof.
  split; [ | split ].
  - intros fl message err. apply credentials_failure.
  - intros fl H.
    destruct (credentials_success w fl H)
      as (key & der & account & data & _ & _ & _ & U & _ & T).
    rewrite T. do 5 eexists. split; [ reflexivity | exact U ].
  - intros fl client acct prompt r H.
    destruct (key_only_registration w fl _ _ _ _ H)
      as (key & der & _ & _ & _ & _ & _ & _ & _ & _ & T).
    exists key, der. exact T.
Qed.

Lemma persistence_by_program_witness :
  exit (Credentials.main world_rejected ops_credentials) =
    Fatal "An error occurred when registering the account."
      (Some (InputError "An error occurred when registering the account."
               "429 urn:ietf:params:acme:error:rateLimited"
               (AnySlice ["mailto:ops@example.com";
                          "https://acme-staging-v02.api.letsencrypt.org/directory"]))) /\
  files_written (trace (Credentials.main world_rejected ops_credentials)) = [].
Proof.
  split; [ reflexivity | ].
  exact (proj1 (persistence_by_program world_rejected) ops_credentials _ _ eq_refl).
Defined.

(** ** C3: the account URI *)

(** C3, counterexample.  The key-only program drops the account that
    [Register] returns: when the client reports success with an account
    whose URI is empty, or with no account, the run returns as for any
    other success. *)
Lemma key_only_accepts_empty_uri :
  Register world_empty_uri (client_of world_empty_uri sample_key true)
    (account_of "ops@example.com") acme.AcceptTOS
    = (Some (sample_account EmptyString), None) /\
  exit (KeyOnly.main world_empty_uri ops_key_only) = Returned tt /\
  network_calls (trace (KeyOnly.main world_empty_uri ops_key_only)) = 1 /\
  exit (KeyOnly.main world_nil_account ops_key_only) = Returned tt.
Proof.
  repeat split.
Qed.

(** C3, as amended.  In the credentials program, when [Register] returns
    without an error and the account is nil or its URI is empty, the run
    ends in a fatal exit, with the message "The account is nil." or "The
    account URI is empty." and no error value, and writes nothing. *)
Theorem credentials_reject_missing_uri
    (w : World) (fl : Credentials.Flags) client acct prompt account :
  In (EvRegister client acct prompt (account, None))
     (trace (Credentials.main w fl)) ->
  uri_missing account = true ->
  exit (Credentials.main w fl) =
    Fatal (match account with
           | None => "The account is nil."
           | Some _ => "The account URI is empty."
           end) None /\
  write_attempts (trace (Credentials.main w fl)) = 0.
Proof.
  run_cases; cbn [In]; intros H M.
  all: repeat match goal with
         | H : _ \/ _ |- _ => destruct H
         | H : False |- _ => destruct H
         end; try discriminate.
  all: match goal with H : EvRegister _ _ _ _ = EvRegister _ _ _ _ |- _ =>
         inversion H; subst; clear H end.
  all: cbn [uri_missing] in M; try congruence.
  all: split; reflexivity.
Qed.

Lemma credentials_reject_missing_uri_witness :
  In (EvRegister (client_of world_empty_uri sample_key true)
        (account_of "ops@example.com") acme.AcceptTOS
        (Some (sample_account EmptyString), None))
     (trace (Credentials.main world_empty_uri ops_credentials)) /\
  uri_missing (Some (sample_account EmptyString)) = true /\
  exit (Credentials.main world_empty_uri ops_credentials) =
    Fatal "The account URI is empty." None /\
  write_attempts (trace (Credentials.main world_empty_uri ops_credentials)) = 0.
Proof.
  assert (H : In (EvRegister (client_of world_empty_uri sample_key true)
                    (account_of "ops@example.com") acme.AcceptTOS
                    (Some (sample_account EmptyString), None))
                 (trace (Credentials.main world_empty_uri ops_credentials))).
  { vm_compute. right. left. reflexivity. }
  split; [ exact H | ].
  split; [ reflexivity | ].
  exact (credentials_reject_missing_uri world_empty_uri ops_credentials
           _ _ _ _ H eq_refl).
Defined.

(** ** C4: the empty email address *)

(** C4, counterexample.  With no email address on the command line, both
    programs end in [LogFatalWithExitingMessage] with a nil error: the
    failure carries no [InputError]. *)
Lemma empty_email_error_is_nil :
  run world_ok (KeyOnlyProgram KeyOnly.default_flags) =
    ([], Fatal "The email address is empty." None) /\
  run world_ok (CredentialsProgram Credentials.default_flags) =
    ([], Fatal "The email address is empty." None) /\
  ~ (exists message Message Cause Input,
        exit (run world_ok (CredentialsProgram Credentials.default_flags)) =
          Fatal message (Some (InputError Message Cause Input))).
Proof.
  repeat split.
  intros (message & Message & Cause & Input & H). discriminate H.
Qed.

(** C4, as amended.  On an empty email address the run ends at once in a
    fatal exit with the message "The email address is empty." and no
    error value, before any key generation, network call or write. *)
Theorem empty_email_stops_before_key_generation (w : World) (p : Program) :
  email_flag p = EmptyString ->
  exit (run w p) = Fatal "The email address is empty." None /\
  trace (run w p) = [] /\
  key_generations (trace (run w p)) = 0 /\
  network_calls (trace (run w p)) = 0 /\
  write_attempts (trace (run w p)) = 0.
Proof.
  intros E. rewrite (empty_email_run w p E). repeat split.
Qed.

Lemma empty_email_stops_before_key_generation_witness :
  email_flag (CredentialsProgram Credentials.default_flags) = EmptyString /\
  exit (run world_ok (CredentialsProgram Credentials.default_flags)) =
    Fatal "The email address is empty." None /\
  trace (run world_ok (CredentialsProgram Credentials.default_flags)) = [] /\
  key_generations (trace (run world_ok (CredentialsProgram Credentials.default_flags))) = 0 /\
  network_calls (trace (run world_ok (CredentialsProgram Credentials.default_flags))) = 0 /\
  write_attempts (trace (run world_ok (CredentialsProgram Credentials.default_flags))) = 0.
Proof.
  split; [ reflexivity | ].
  apply (empty_email_stops_before_key_generation world_ok
           (CredentialsProgram Credentials.default_flags)).
  reflexivity.
Defined.

(** ** C5: the credentials file *)

(** C5.  A run of the credentials program that returns has written one
    file, at the output path: the JSON encoding of the object whose
    member [uri] is the URI of the account that [Register] returned and
    whose member [key] is the PEM text of the DER encoding of the key
    that the run generated and registered with. *)
Theorem credentials_file_is_uri_and_key (w : World) (fl : Credentials.Flags) :
  exit (Credentials.main w fl) = Returned tt ->
  exists key der client acct account data,
    In (EvGenerateKey P256 (Ok key)) (trace (Credentials.main w fl)) /\
    In (EvRegister client acct acme.AcceptTOS (Some account, None))
       (trace (Credentials.main w fl)) /\
    acme.Key client = key /\
    MarshalECPrivateKey w key = Ok der /\
    letsencryptUtilsTypes.to_json
      {| letsencryptUtilsTypes.Uri := acme.URI account;
         letsencryptUtilsTypes.Key :=
           string_of_list_byte
             (EncodeToMemory w {| Type_ := "EC PRIVATE KEY"; Bytes := der |}) |}
      = JObject
          [("uri", JString (acme.URI account));
           ("key", JString
              (string_of_list_byte
                 (EncodeToMemory w {| Type_ := "EC PRIVATE KEY"; Bytes := der |})))] /\
    Marshal w
      (JObject
         [("uri", JString (acme.URI account));
          ("key", JString
             (string_of_list_byte
                (EncodeToMemory w {| Type_ := "EC PRIVATE KEY"; Bytes := der |})))])
      = Ok data /\
    files_written (trace (Credentials.main w fl)) =
      [(Credentials.accountCredentialsOutPath fl, data, mode_0600)] /\
    write_attempts (trace (Credentials.main w fl)) = 1.
Proof.
  intros H.
  destruct (credentials_success w fl H)
    as (key & der & account & data & G & D & R & U & J & T).
  exists key, der, (client_of w key (Credentials.useStaging fl)),
    (account_of (Credentials.emailAddress fl)), account, data.
  rewrite T. cbn [In files_written write_attempts filter is_write length].
  repeat split; auto.
Qed.

Lemma credentials_file_is_uri_and_key_witness :
  exit (Credentials.main world_ok ops_credentials) = Returned tt /\
  exists key der client acct account data,
    In (EvGenerateKey P256 (Ok key))
       (trace (Credentials.main world_ok ops_credentials)) /\
    In (EvRegister client acct acme.AcceptTOS (Some account, None))
       (trace (Credentials.main world_ok ops_credentials)) /\
    acme.Key client = key /\
    MarshalECPrivateKey world_ok key = Ok der /\
    letsencryptUtilsTypes.to_json
      {| letsencryptUtilsTypes.Uri := acme.URI account;
         letsencryptUtilsTypes.Key :=
           string_of_list_byte
             (EncodeToMemory world_ok
                {| Type_ := "EC PRIVATE KEY"; Bytes := der |}) |}
      = JObject
          [("uri", JString (acme.URI account));
           ("key", JString
              (string_of_list_byte
                 (EncodeToMemory world_ok
                    {| Type_ := "EC PRIVATE KEY"; Bytes := der |})))] /\
    Marshal world_ok
      (JObject
         [("uri", JString (acme.URI account));
          ("key", JString
             (string_of_list_byte
                (EncodeToMemory world_ok
                   {| Type_ := "EC PRIVATE KEY"; Bytes := der |})))])
      = Ok data /\
    files_written (trace (Credentials.main world_ok ops_credentials)) =
      [("account_credentials.json", data, mode_0600)] /\
    write_attempts (trace (Credentials.main world_ok ops_credentials)) = 1.
Proof.
  split; [ reflexivity | ].
  exact (credentials_file_is_uri_and_key world_ok ops_credentials eq_refl).
Defined.

(** ** C6: the directory *)

(** C6.  Whenever a run goes to the network, the directory URL of its
    client is [acme.LetsEncryptURL], the production directory, when the
    staging flag is unset, and the staging directory when it is set. *)
Theorem directory_url_follows_staging_flag
    (w : World) (p : Program) client acct prompt r :
  In (EvRegister client acct prompt r) (trace (run w p)) ->
  acme.DirectoryURL client =
    if staging_flag p
    then "https://acme-staging-v02.api.letsencrypt.org/directory"
    else LetsEncryptURL w.
Proof.
  destruct p as [fl | fl]; cbn [run staging_flag]; intros H.
  - destruct (key_only_registration w fl _ _ _ _ H)
      as (key & der & _ & _ & _ & _ & E & _).
    rewrite E. reflexivity.
  - destruct (credentials_registration w fl _ _ _ _ H)
      as (key & der & rest & _ & _ & _ & _ & E & _).
    rewrite E. reflexivity.
Qed.

Lemma directory_url_follows_staging_flag_witness :
  In (EvRegister (client_of world_ok sample_key false)
        (account_of "ops@example.com") acme.AcceptTOS
        (Register world_ok (client_of world_ok sample_key false)
           (account_of "ops@example.com") acme.AcceptTOS))
     (trace (run world_ok (CredentialsProgram ops_production))) /\
  acme.DirectoryURL (client_of world_ok sample_key false) =
    "https://acme-v02.api.letsencrypt.org/directory".
Proof.
  assert (H : In (EvRegister (client_of world_ok sample_key false)
                    (account_of "ops@example.com") acme.AcceptTOS
                    (Register world_ok (client_of world_ok sample_key false)
                       (account_of "ops@example.com") acme.AcceptTOS))
                 (trace (run world_ok (CredentialsProgram ops_production)))).
  { vm_compute. right. left. reflexivity. }
  split; [ exact H | ].
  exact (directory_url_follows_staging_flag world_ok
           (CredentialsProgram ops_production) _ _ _ _ H).
Defined.

(** ** C7: the registration request *)

(** C7, counterexample.  The claim lets the terms-of-service member of
    the request follow an acceptance value of the caller.  The command
    line carries no such value: a run with the valid address
    ops@example.com registers the contact [mailto:ops@example.com] with
    a prompt that agrees to the terms, also for a caller who declines. *)
Lemma request_terms_ignore_caller :
  (exists r,
      trace (run world_ok (KeyOnlyProgram ops_key_only)) =
        [EvGenerateKey P256 (Ok sample_key);
         EvWriteFile "account_key.pem" (pem_of world_ok sample_der) mode_0600 None;
         EvRegister (client_of world_ok sample_key true)
           {| acme.URI := EmptyString;
              acme.Contact := ["mailto:ops@example.com"] |}
           acme.AcceptTOS r]) /\
  acme.AcceptTOS "https://letsencrypt.org/documents/LE-SA-v1.4.pdf" = true /\
  ~ (forall (w : World) (p : Program) (acceptTermsOfService : bool)
            client acct prompt r tosURL,
       In (EvRegister client acct prompt r) (trace (run w p)) ->
       acme.Contact acct = ["mailto:" ++ email_flag p] /\
       prompt tosURL = acceptTermsOfService).
Proof.
  split; [ eexists; reflexivity | ].
  split; [ reflexivity | ].
  intros claim.
  assert (H : In (EvRegister (client_of world_ok sample_key true)
                    (account_of "ops@example.com") acme.AcceptTOS
                    (Register world_ok (client_of world_ok sample_key true)
                       (account_of "ops@example.com") acme.AcceptTOS))
                 (trace (run world_ok (KeyOnlyProgram ops_key_only)))).
  { vm_compute. right. right. left. reflexivity. }
  destruct (claim world_ok (KeyOnlyProgram ops_key_only) false _ _ _ _
              EmptyString H) as [_ terms].
  discriminate terms.
Qed.

(** C7, as amended.  Whenever a run goes to the network, its email
    address has passed both checks, the account it registers has the
    single contact [mailto:] followed by that address, and the decision
    on the terms of service that goes with the request is no value of
    the caller but the prompt [acme.AcceptTOS], which agrees to any
    terms URL. *)
Theorem registration_request_contact_and_terms
    (w : World) (p : Program) client acct prompt r :
  In (EvRegister client acct prompt r) (trace (run w p)) ->
  email_flag p <> EmptyString /\
  ParseAddress w (email_flag p) = None /\
  acme.Contact acct = ["mailto:" ++ email_flag p] /\
  prompt = acme.AcceptTOS /\
  forall tosURL, prompt tosURL = true.
Proof.
  destruct p as [fl | fl]; cbn [run email_flag]; intros H.
  - destruct (key_only_registration w fl _ _ _ _ H)
      as (key & der & N & V & _ & _ & _ & A & T & _).
    subst acct prompt. repeat split; auto.
  - destruct (credentials_registration w fl _ _ _ _ H)
      as (key & der & rest & N & V & _ & _ & _ & A & T & _).
    subst acct prompt. repeat split; auto.
Qed.

Lemma registration_request_contact_and_terms_witness :
  In (EvRegister (client_of world_ok sample_key true)
        (account_of "ops@example.com") acme.AcceptTOS
        (Register world_ok (client_of world_ok sample_key true)
           (account_of "ops@example.com") acme.AcceptTOS))
     (trace (run world_ok (KeyOnlyProgram ops_key_only))) /\
  ("ops@example.com" <> EmptyString /\
   ParseAddress world_ok "ops@example.com" = None /\
   acme.Contact (account_of "ops@example.com") = ["mailto:ops@example.com"] /\
   acme.AcceptTOS = acme.AcceptTOS /\
   forall tosURL, acme.AcceptTOS tosURL = true).
Proof.
  assert (H : In (EvRegister (client_of world_ok sample_key true)
                    (account_of "ops@example.com") acme.AcceptTOS
                    (Register world_ok (client_of world_ok sample_key true)
                       (account_of "ops@example.com") acme.AcceptTOS))
                 (trace (run world_ok (KeyOnlyProgram ops_key_only)))).
  { vm_compute. right. right. left. reflexivity. }
  split; [ exact H | ].
  exact (registration_request_contact_and_terms world_ok
           (KeyOnlyProgram ops_key_only) _ _ _ _ H).
Defined.

(** ** C9: the account key *)

(** C9.  Whenever a run goes to the network, the first thing it did was
    to generate a key on P-256, that call answered with the key of the
    client, and the run generates no other key.  When the key generator
    answers with keys on the curve it is asked for, the key of the client
    is on P-256. *)
Theorem account_key_is_fresh_p256
    (w : World) (p : Program) client acct prompt r :
  In (EvRegister client acct prompt r) (trace (run w p)) ->
  exists rest,
    trace (run w p) = EvGenerateKey P256 (Ok (acme.Key client)) :: rest /\
    GenerateKey w P256 = Ok (acme.Key client) /\
    key_generations rest = 0 /\
    ((forall c key, GenerateKey w c = Ok key -> Curve_ key = c) ->
     Curve_ (acme.Key client) = P256).
Proof.
  destruct p as [fl | fl]; cbn [run]; intros H.
  - destruct (key_only_registration w fl _ _ _ _ H)
      as (key & der & _ & _ & G & _ & C & _ & _ & _ & T).
    subst client. cbn [acme.Key client_of]. rewrite T.
    eexists. repeat split; [ exact G | ]. intros honest. exact (honest _ _ G).
  - destruct (credentials_registration w fl _ _ _ _ H)
      as (key & der & rest & _ & _ & G & _ & C & _ & _ & _ & T & K & _).
    subst client. cbn [acme.Key client_of]. rewrite T.
    eexists. repeat split; [ exact G | exact K | ].
    intros honest. exact (honest _ _ G).
Qed.

Lemma account_key_is_fresh_p256_witness :
  In (EvRegister (client_of world_ok sample_key true)
        (account_of "ops@example.com") acme.AcceptTOS
        (Register world_ok (client_of world_ok sample_key true)
           (account_of "ops@example.com") acme.AcceptTOS))
     (trace (run world_ok (CredentialsProgram ops_credentials))) /\
  exists rest,
    trace (run world_ok (CredentialsProgram ops_credentials)) =
      EvGenerateKey P256 (Ok sample_key) :: rest /\
    GenerateKey world_ok P256 = Ok sample_key /\
    key_generations rest = 0 /\
    ((forall c key, GenerateKey world_ok c = Ok key -> Curve_ key = c) ->
     Curve_ sample_key = P256).
Proof.
  assert (H : In (EvRegister (client_of world_ok sample_key true)
                    (account_of "ops@example.com") acme.AcceptTOS
                    (Register world_ok (client_of world_ok sample_key true)
                       (account_of "ops@example.com") acme.AcceptTOS))
                 (trace (run world_ok (CredentialsProgram ops_credentials)))).
  { vm_compute. right. left. reflexivity. }
  split; [ exact H | ].
  exact (account_key_is_fresh_p256 world_ok
           (CredentialsProgram ops_credentials) _ _ _ _ H).
Defined.

(** ** C10: permissions *)

(** C10.  Every write of either program, the key file of the key-only
    program and the credentials file of the credentials program, asks
    for permission [0600]: the owner may read and write (bits 8 and 7),
    and no other bit is set. *)
Theorem written_files_are_0600 (w : World) (p : Program) name data perm err :
  In (EvWriteFile name data perm err) (trace (run w p)) ->
  perm = mode_0600 /\
  forall i, Z.testbit perm i = ((i =? 8) || (i =? 7))%Z.
Proof.
  intros H.
  assert (E : perm = mode_0600).
  { revert H. destruct p as [fl | fl]; run_cases.
    all: cbn [In]; intuition (try discriminate; try congruence). }
  subst perm. split; [ reflexivity | exact mode_0600_bits ].
Qed.

Lemma written_files_are_0600_witness :
  In (EvWriteFile "account_key.pem" (pem_of world_ok sample_der) 384 None)
     (trace (run world_ok (KeyOnlyProgram ops_key_only))) /\
  (384%Z = mode_0600 /\
   forall i, Z.testbit 384 i = ((i =? 8) || (i =? 7))%Z).
Proof.
  assert (H : In (EvWriteFile "account_key.pem" (pem_of world_ok sample_der) 384 None)
                 (trace (run world_ok (KeyOnlyProgram ops_key_only)))).
  { vm_compute. right. left. reflexivity. }
  split; [ exact H | ].
  exact (written_files_are_0600 world_ok (KeyOnlyProgram ops_key_only) _ _ _ _ H).
Defined.

(** * Further properties of the two programs *)

(** ** X1: an address that the parser refuses *)

(** X1.  When the email address is not empty and [mail.ParseAddress]
    refuses it, either program ends in a fatal exit with an [InputError]
    whose cause is the parser's error and whose input is the address, and
    has generated no key, made no network call and written nothing. *)
Theorem refused_email_is_input_error (w : World) (p : Program) (err : error) :
  email_flag p <> EmptyString ->
  ParseAddress w (email_flag p) = Some err ->
  exit (run w p) =
    Fatal "The email address is invalid."
      (Some (InputError "The email address is invalid." err
               (AnyString (email_flag p)))) /\
  trace (run w p) = [].
Proof.
  intros N R. rewrite (refused_email_run w p err N R). split; reflexivity.
Qed.

Lemma refused_email_is_input_error_witness :
  email_flag (KeyOnlyProgram no_at_key_only) <> EmptyString /\
  ParseAddress world_ok (email_flag (KeyOnlyProgram no_at_key_only)) =
    Some "mail: missing '@' or angle-addr" /\
  exit (run world_ok (KeyOnlyProgram no_at_key_only)) =
    Fatal "The email address is invalid."
      (Some (InputError "The email address is invalid."
               "mail: missing '@' or angle-addr"
               (AnyString (email_flag (KeyOnlyProgram no_at_key_only))))) /\
  trace (run world_ok (KeyOnlyProgram no_at_key_only)) = [].
Proof.
  split; [ discriminate | ]. split; [ reflexivity | ].
  apply (refused_email_is_input_error world_ok (KeyOnlyProgram no_at_key_only)).
  - discriminate.
  - reflexivity.
Defined.

(** ** X2: no key *)

(** X2.  When the email address passes both checks and no key comes out
    of key generation and DER marshalling, either program ends in a fatal
    exit with a [CauseError] that carries the library's error, after the
    one call of the key generator, with no write and no network call. *)
Theorem key_production_failure (w : World) (p : Program) :
  email_flag p <> EmptyString ->
  ParseAddress w (email_flag p) = None ->
  (forall key, GenerateKey w P256 = Ok key ->
               exists err, MarshalECPrivateKey w key = Err err) ->
  exists message cause,
    exit (run w p) = Fatal message (Some (CauseError message cause)) /\
    (GenerateKey w P256 = Err cause \/
     exists key, GenerateKey w P256 = Ok key /\
                 MarshalECPrivateKey w key = Err cause) /\
    trace (run w p) = [EvGenerateKey P256 (GenerateKey w P256)] /\
    network_calls (trace (run w p)) = 0 /\
    write_attempts (trace (run w p)) = 0.
Proof.
  intros N V K.
  destruct (GenerateKey w P256) as [key | cause] eqn:G.
  - destruct (K key eq_refl) as [cause M].
    exists "An error occurred when marshalling the account key data.", cause.
    apply String.eqb_neq in N.
    destruct p as [fl | fl]; cbn [email_flag] in N, V;
      cbv [run KeyOnly.main Credentials.main bind ret
           LogFatalWithExitingMessage ecdsa_GenerateKey trace exit fst snd];
      rewrite N, V, G, M; cbn; repeat split; right; exists key; auto.
  - exists "An error occurred when generating an account key.", cause.
    apply String.eqb_neq in N.
    destruct p as [fl | fl]; cbn [email_flag] in N, V;
      cbv [run KeyOnly.main Credentials.main bind ret
           LogFatalWithExitingMessage ecdsa_GenerateKey trace exit fst snd];
      rewrite N, V, G; cbn; repeat split; left; reflexivity.
Qed.

Lemma key_production_failure_witness :
  exists message cause,
    exit (run world_no_entropy (CredentialsProgram ops_credentials)) =
      Fatal message (Some (CauseError message cause)) /\
    (GenerateKey world_no_entropy P256 = Err cause \/
     exists key, GenerateKey world_no_entropy P256 = Ok key /\
                 MarshalECPrivateKey world_no_entropy key = Err cause) /\
    trace (run world_no_entropy (CredentialsProgram ops_credentials)) =
      [EvGenerateKey P256 (GenerateKey world_no_entropy P256)] /\
    network_calls (trace (run world_no_entropy (CredentialsProgram ops_credentials))) = 0 /\
    write_attempts (trace (run world_no_entropy (CredentialsProgram ops_credentials))) = 0.
Proof.
  apply (key_production_failure world_no_entropy (CredentialsProgram ops_credentials)).
  - discriminate.
  - reflexivity.
  - intros key G. discriminate G.
Defined.

(** ** X3: the key file cannot be written *)

(** X3.  When the write of the key file fails, the key-only program ends
    in a fatal exit with an [InputError] whose cause is the error of the
    write and whose input is the output path, and makes no network call:
    it registers no account whose key it could not save. *)
Theorem key_only_write_failure_stops_registration
    (w : World) (fl : KeyOnly.Flags) name data perm err :
  In (EvWriteFile name data perm (Some err)) (trace (KeyOnly.main w fl)) ->
  exit (KeyOnly.main w fl) =
    Fatal "An error occurred when writing the account key PEM data to a file."
      (Some (InputError
               "An error occurred when writing the account key PEM data to a file."
               err (AnyString (KeyOnly.keyOutputPath fl)))) /\
  network_calls (trace (KeyOnly.main w fl)) = 0 /\
  files_written (trace (KeyOnly.main w fl)) = [].
Proof.
  run_cases; intros H; which_event.
  all: match goal with H : EvWriteFile _ _ _ _ = EvWriteFile _ _ _ _ |- _ =>
         inversion H; subst; clear H end.
  repeat split.
Qed.

Lemma key_only_write_failure_stops_registration_witness :
  In (EvWriteFile "account_key.pem" (pem_of world_disk_full sample_der)
        mode_0600 (Some "no space left on device"))
     (trace (KeyOnly.main world_disk_full ops_key_only)) /\
  exit (KeyOnly.main world_disk_full ops_key_only) =
    Fatal "An error occurred when writing the account key PEM data to a file."
      (Some (InputError
               "An error occurred when writing the account key PEM data to a file."
               "no space left on device"
               (AnyString (KeyOnly.keyOutputPath ops_key_only)))) /\
  network_calls (trace (KeyOnly.main world_disk_full ops_key_only)) = 0 /\
  files_written (trace (KeyOnly.main world_disk_full ops_key_only)) = [].
Proof.
  assert (H : In (EvWriteFile "account_key.pem" (pem_of world_disk_full sample_der)
                    mode_0600 (Some "no space left on device"))
                 (trace (KeyOnly.main world_disk_full ops_key_only))).
  { vm_compute. right. left. reflexivity. }
  split; [ exact H | ].
  exact (key_only_write_failure_stops_registration world_disk_full ops_key_only
           _ _ _ _ H).
Defined.

(** ** X4: the CA refuses *)

(** X4.  When [Register] returns an error, either program ends in a fatal
    exit with an [InputError] whose cause is that error and whose input
    is the contact address followed by the directory URL of the client,
    whatever account came back with the error; the credentials program
    has then attempted no write. *)
Theorem registration_failure_is_input_error
    (w : World) (p : Program) client acct prompt account err :
  In (EvRegister client acct prompt (account, Some err)) (trace (run w p)) ->
  exit (run w p) =
    Fatal "An error occurred when registering the account."
      (Some (InputError "An error occurred when registering the account." err
               (AnySlice ["mailto:" ++ email_flag p; acme.DirectoryURL client]))) /\
  network_calls (trace (run w p)) = 1 /\
  match p with
  | KeyOnlyProgram _ => write_attempts (trace (run w p)) = 1
  | CredentialsProgram _ => write_attempts (trace (run w p)) = 0
  end.
Proof.
  destruct p as [fl | fl]; cbn [email_flag]; run_cases; intros H; which_event.
  all: match goal with H : EvRegister _ _ _ _ = EvRegister _ _ _ _ |- _ =>
         inversion H; subst; clear H end.
  all: repeat split.
Qed.

Lemma registration_failure_is_input_error_witness :
  In (EvRegister (client_of world_rejected sample_key true)
        (account_of "ops@example.com") acme.AcceptTOS
        (None, Some "429 urn:ietf:params:acme:error:rateLimited"))
     (trace (run world_rejected (CredentialsProgram ops_credentials))) /\
  exit (run world_rejected (CredentialsProgram ops_credentials)) =
    Fatal "An error occurred when registering the account."
      (Some (InputError "An error occurred when registering the account."
               "429 urn:ietf:params:acme:error:rateLimited"
               (AnySlice ["mailto:" ++ email_flag (CredentialsProgram ops_credentials);
                          acme.DirectoryURL (client_of world_rejected sample_key true)]))) /\
  network_calls (trace (run world_rejected (CredentialsProgram ops_credentials))) = 1 /\
  write_attempts (trace (run world_rejected (CredentialsProgram ops_credentials))) = 0.
Proof.
  assert (H : In (EvRegister (client_of world_rejected sample_key true)
                    (account_of "ops@example.com") acme.AcceptTOS
                    (None, Some "429 urn:ietf:params:acme:error:rateLimited"))
                 (trace (run world_rejected (CredentialsProgram ops_credentials)))).
  { vm_compute. right. left. reflexivity. }
  split; [ exact H | ].
  exact (registration_failure_is_input_error world_rejected
           (CredentialsProgram ops_credentials) _ _ _ _ _ H).
Defined.

(** ** X5: a registered account whose key is not saved *)

(** X5.  The credentials program keeps the key in memory until its last
    step.  When [Register] has returned an account with a URI and the run
    still ends in a fatal exit, the failure is that of [json.Marshal],
    with no write attempted, or that of the one write, which returned an
    error: the account is registered with the CA and no write of its
    key has completed. *)
Theorem credentials_lost_after_registration
    (w : World) (fl : Credentials.Flags) client acct prompt account message err :
  In (EvRegister client acct prompt (Some account, None))
     (trace (Credentials.main w fl)) ->
  acme.URI account <> EmptyString ->
  exit (Credentials.main w fl) = Fatal message err ->
  ((message = "An error occurred when marshalling the account credentials." /\
    write_attempts (trace (Credentials.main w fl)) = 0) \/
   (message = "An error occurred when writing the account credentials data to disk." /\
    write_attempts (trace (Credentials.main w fl)) = 1 /\
    exists name data perm cause,
      In (EvWriteFile name data perm (Some cause))
         (trace (Credentials.main w fl)))) /\
  network_calls (trace (Credentials.main w fl)) = 1 /\
  files_written (trace (Credentials.main w fl)) = [].
Proof.
  run_cases; intros H U F; which_event.
  all: match goal with H : EvRegister _ _ _ _ = EvRegister _ _ _ _ |- _ =>
         inversion H; subst; clear H end.
  all: string_tests; try contradiction.
  all: inversion F; subst; repeat split.
  all: first
         [ left; split; reflexivity
         | right; repeat split; do 4 eexists; cbn [In];
           right; right; left; reflexivity ].
Qed.

Lemma credentials_lost_after_registration_witness :
  In (EvRegister (client_of world_disk_full sample_key true)
        (account_of "ops@example.com") acme.AcceptTOS
        (Some (sample_account "https://acme-staging-v02.api.letsencrypt.org/acme/acct/123"),
         None))
     (trace (Credentials.main world_disk_full ops_credentials)) /\
  exit (Credentials.main world_disk_full ops_credentials) =
    Fatal "An error occurred when writing the account credentials data to disk."
      (Some (InputError
               "An error occurred when writing the account credentials data to disk."
               "no space left on device"
               (AnyString "account_credentials.json"))) /\
  write_attempts (trace (Credentials.main world_disk_full ops_credentials)) = 1 /\
  network_calls (trace (Credentials.main world_disk_full ops_credentials)) = 1 /\
  files_written (trace (Credentials.main world_disk_full ops_credentials)) = [].
Proof.
  assert (H : In (EvRegister (client_of world_disk_full sample_key true)
                    (account_of "ops@example.com") acme.AcceptTOS
                    (Some (sample_account
                             "https://acme-staging-v02.api.letsencrypt.org/acme/acct/123"),
                     None))
                 (trace (Credentials.main world_disk_full ops_credentials))).
  { vm_compute. right. left. reflexivity. }
  assert (U : acme.URI (sample_account
                "https://acme-staging-v02.api.letsencrypt.org/acme/acct/123")
              <> EmptyString) by discriminate.
  split; [ exact H | ]. split; [ reflexivity | ]. split; [ reflexivity | ].
  exact (proj2 (credentials_lost_after_registration world_disk_full ops_credentials
                  _ _ _ _ _ _ H U eq_refl)).
Defined.

(** ** X6: no retries *)

(** X6.  A run of either program makes no effect twice and none before
    the key generation: its trace is empty, or it starts with the one
    key generation on P-256 and goes on with at most one network call
    and at most one write, and it goes on at all only when the key
    generation gave a key. *)
Theorem effects_at_most_once (w : World) (p : Program) :
  trace (run w p) = [] \/
  exists rest,
    trace (run w p) = EvGenerateKey P256 (GenerateKey w P256) :: rest /\
    key_generations rest = 0 /\
    network_calls rest <= 1 /\
    write_attempts rest <= 1 /\
    (rest = [] \/ exists key, GenerateKey w P256 = Ok key).
Proof.
  destruct p as [fl | fl]; run_cases.
  all: first [ left; reflexivity | right ].
  all: eexists; split; [ reflexivity | ].
  all: cbn; repeat split; try lia.
  all: first [ left; reflexivity | right; eexists; reflexivity ].
Qed.

(** ** X7 and X8: when a run returns *)

(** X7.  The key-only program returns exactly when the email address
    passes both checks, the key is generated and marshalled, the key file
    is written and [Register] returns no error. *)
Theorem key_only_returns_iff (w : World) (fl : KeyOnly.Flags) :
  exit (KeyOnly.main w fl) = Returned tt <->
  (KeyOnly.emailAddress fl <> EmptyString /\
   ParseAddress w (KeyOnly.emailAddress fl) = None /\
   exists key der,
     GenerateKey w P256 = Ok key /\
     MarshalECPrivateKey w key = Ok der /\
     WriteFile w (KeyOnly.keyOutputPath fl) (pem_of w der) mode_0600 = None /\
     snd (Register w (client_of w key (KeyOnly.useStaging fl))
            (account_of (KeyOnly.emailAddress fl)) acme.AcceptTOS) = None).
Proof.
  unfold pem_of, client_of, account_of. split.
  - run_cases; intros H; try discriminate.
    string_tests. repeat split; try assumption.
    do 2 eexists. repeat split; try eassumption.
    match goal with H : Register _ _ _ _ = _ |- _ => rewrite H end. reflexivity.
  - intros (N & V & key & der & G & M & W & R).
    apply String.eqb_neq in N.
    cbv [KeyOnly.main bind ret LogFatalWithExitingMessage ecdsa_GenerateKey
         os_WriteFile client_Register exit].
    rewrite N, V, G, M, W. cbn [fst snd app]. rewrite R. reflexivity.
Qed.

Lemma key_only_returns_iff_witness :
  exit (KeyOnly.main world_ok ops_key_only) = Returned tt.
Proof.
  apply (proj2 (key_only_returns_iff world_ok ops_key_only)).
  split; [ discriminate | ]. split; [ reflexivity | ].
  exists sample_key, sample_der. repeat split.
Defined.

(** X8.  The credentials program returns exactly when the email address
    passes both checks, the key is generated and marshalled, [Register]
    returns an account with a URI and no error, the credentials are
    marshalled and the credentials file is written. *)
Theorem credentials_returns_iff (w : World) (fl : Credentials.Flags) :
  exit (Credentials.main w fl) = Returned tt <->
  (Credentials.emailAddress fl <> EmptyString /\
   ParseAddress w (Credentials.emailAddress fl) = None /\
   exists key der account data,
     GenerateKey w P256 = Ok key /\
     MarshalECPrivateKey w key = Ok der /\
     Register w (client_of w key (Credentials.useStaging fl))
       (account_of (Credentials.emailAddress fl)) acme.AcceptTOS
       = (Some account, None) /\
     acme.URI account <> EmptyString /\
     Marshal w
       (letsencryptUtilsTypes.to_json
          {| letsencryptUtilsTypes.Uri := acme.URI account;
             letsencryptUtilsTypes.Key := string_of_list_byte (pem_of w der) |})
       = Ok data /\
     WriteFile w (Credentials.accountCredentialsOutPath fl) data mode_0600 = None).
Proof.
  unfold pem_of, client_of, account_of. split.
  - run_cases; intros H; try discriminate.
    string_tests. repeat split; try assumption.
    do 4 eexists. repeat split; eassumption.
  - intros (N & V & key & der & account & data & G & M & R & U & J & W).
    apply String.eqb_neq in N, U.
    cbv [Credentials.main bind ret LogFatalWithExitingMessage ecdsa_GenerateKey
         os_WriteFile client_Register exit].
    rewrite N, V, G, M, R. cbn [fst snd app]. rewrite U, J, W. reflexivity.
Qed.

Lemma credentials_returns_iff_witness :
  exit (Credentials.main world_ok ops_credentials) = Returned tt.
Proof.
  apply (proj2 (credentials_returns_iff world_ok ops_credentials)).
  split; [ discriminate | ]. split; [ reflexivity | ].
  exists sample_key, sample_der,
    (sample_account "https://acme-staging-v02.api.letsencrypt.org/acme/acct/123").
  eexists. repeat split. discriminate.
Defined.

(** ** X9: the key file of the key-only program *)

(** X9.  Whatever the key-only program writes, it writes to the output
    path, and the contents are the PEM block of type EC PRIVATE KEY over
    the DER encoding of the key that the run generated; a network call of
    the same run registers with that key. *)
Theorem key_only_file_is_pem_of_registered_key
    (w : World) (fl : KeyOnly.Flags) name data perm err :
  In (EvWriteFile name data perm err) (trace (KeyOnly.main w fl)) ->
  exists key der,
    GenerateKey w P256 = Ok key /\
    MarshalECPrivateKey w key = Ok der /\
    name = KeyOnly.keyOutputPath fl /\
    data = EncodeToMemory w {| Type_ := "EC PRIVATE KEY"; Bytes := der |} /\
    err = WriteFile w name data perm /\
    (network_calls (trace (KeyOnly.main w fl)) = 0 \/
     exists acct prompt r,
       In (EvRegister (client_of w key (KeyOnly.useStaging fl)) acct prompt r)
          (trace (KeyOnly.main w fl))).
Proof.
  unfold client_of. run_cases; intros H; which_event.
  all: match goal with H : EvWriteFile _ _ _ _ = EvWriteFile _ _ _ _ |- _ =>
         inversion H; subst; clear H end.
  all: do 2 eexists; repeat split; try eassumption; try reflexivity;
       try (symmetry; eassumption).
  all: first [ left; reflexivity
             | right; do 3 eexists; cbn [In]; right; right; left; reflexivity ].
Qed.

Lemma key_only_file_is_pem_of_registered_key_witness :
  In (EvWriteFile "account_key.pem" (pem_of world_ok sample_der) mode_0600 None)
     (trace (KeyOnly.main world_ok ops_key_only)) /\
  exists key der,
    GenerateKey world_ok P256 = Ok key /\
    MarshalECPrivateKey world_ok key = Ok der /\
    "account_key.pem" = KeyOnly.keyOutputPath ops_key_only /\
    pem_of world_ok sample_der =
      EncodeToMemory world_ok {| Type_ := "EC PRIVATE KEY"; Bytes := der |} /\
    None = WriteFile world_ok "account_key.pem" (pem_of world_ok sample_der) mode_0600 /\
    (network_calls (trace (KeyOnly.main world_ok ops_key_only)) = 0 \/
     exists acct prompt r,
       In (EvRegister (client_of world_ok key (KeyOnly.useStaging ops_key_only))
             acct prompt r)
          (trace (KeyOnly.main world_ok ops_key_only))).
Proof.
  assert (H : In (EvWriteFile "account_key.pem" (pem_of world_ok sample_der)
                    mode_0600 None)
                 (trace (KeyOnly.main world_ok ops_key_only))).
  { vm_compute. right. left. reflexivity. }
  split; [ exact H | ].
  exact (key_only_file_is_pem_of_registered_key world_ok ops_key_only _ _ _ _ H).
Defined.

(** ** X10: what a fatal exit carries *)

(** X10.  The error value of a fatal exit goes with its message: the
    empty address, the nil account and the empty URI come with a nil
    error; the failures of key generation and of the two marshallings
    come with a [CauseError], the refused address, the failed writes and
    the failed registration with an [InputError]; and the [Message] of
    the error value is the logged message. *)
Theorem fatal_error_goes_with_message
    (w : World) (p : Program) (message : string) (err : option MotmedelError) :
  exit (run w p) = Fatal message err ->
  match err with
  | None => In message messages_without_error
  | Some (CauseError Message _) =>
      Message = message /\ In message messages_with_cause_error
  | Some (InputError Message _ _) =>
      Message = message /\ In message messages_with_input_error
  end.
Proof.
  destruct p as [fl | fl]; run_cases; intros H; inversion H; subst; clear H.
  all: unfold messages_without_error, messages_with_cause_error,
         messages_with_input_error; cbn [In]; tauto.
Qed.

Lemma fatal_error_goes_with_message_witness :
  exit (run world_rejected (KeyOnlyProgram ops_key_only)) =
    Fatal "An error occurred when registering the account."
      (Some (InputError "An error occurred when registering the account."
               "429 urn:ietf:params:acme:error:rateLimited"
               (AnySlice ["mailto:ops@example.com";
                          "https://acme-staging-v02.api.letsencrypt.org/directory"]))) /\
  ("An error occurred when registering the account." =
     "An error occurred when registering the account." /\
   In "An error occurred when registering the account." messages_with_input_error).
Proof.
  split; [ reflexivity | ].
  exact (fatal_error_goes_with_message world_rejected (KeyOnlyProgram ops_key_only)
           _ _ eq_refl).
Defined.

(** ** X11: the write of the credentials program *)

(** X11.  The credentials program attempts its write, whether the write
    then succeeds or not, only after [Register] has returned an account
    with a URI and no error; the write goes to the output path and its
    contents are the marshalled credentials of that account and of the
    generated key. *)
Theorem credentials_write_follows_registration
    (w : World) (fl : Credentials.Flags) name data perm err :
  In (EvWriteFile name data perm err) (trace (Credentials.main w fl)) ->
  exists key der account,
    GenerateKey w P256 = Ok key /\
    MarshalECPrivateKey w key = Ok der /\
    trace (Credentials.main w fl) =
      [EvGenerateKey P256 (Ok key);
       EvRegister (client_of w key (Credentials.useStaging fl))
         (account_of (Credentials.emailAddress fl)) acme.AcceptTOS
         (Some account, None);
       EvWriteFile name data perm err] /\
    acme.URI account <> EmptyString /\
    name = Credentials.accountCredentialsOutPath fl /\
    Marshal w
      (letsencryptUtilsTypes.to_json
         {| letsencryptUtilsTypes.Uri := acme.URI account;
            letsencryptUtilsTypes.Key := string_of_list_byte (pem_of w der) |})
      = Ok data.
Proof.
  unfold client_of, account_of, pem_of. run_cases; intros H; which_event.
  all: match goal with H : EvWriteFile _ _ _ _ = EvWriteFile _ _ _ _ |- _ =>
         inversion H; subst; clear H end.
  all: string_tests.
  all: do 3 eexists; repeat split; try eassumption; reflexivity.
Qed.

Lemma credentials_write_follows_registration_witness :
  In (EvWriteFile "account_credentials.json"
        (list_byte_of_string
           (render
              (letsencryptUtilsTypes.to_json
                 {| letsencryptUtilsTypes.Uri :=
                      "https://acme-staging-v02.api.letsencrypt.org/acme/acct/123";
                    letsencryptUtilsTypes.Key :=
                      string_of_list_byte (pem_of world_disk_full sample_der) |})))
        mode_0600 (Some "no space left on device"))
     (trace (Credentials.main world_disk_full ops_credentials)) /\
  exists key der account,
    GenerateKey world_disk_full P256 = Ok key /\
    MarshalECPrivateKey world_disk_full key = Ok der /\
    trace (Credentials.main world_disk_full ops_credentials) =
      [EvGenerateKey P256 (Ok key);
       EvRegister (client_of world_disk_full key (Credentials.useStaging ops_credentials))
         (account_of (Credentials.emailAddress ops_credentials)) acme.AcceptTOS
         (Some account, None);
       EvWriteFile "account_credentials.json"
         (list_byte_of_string
            (render
               (letsencryptUtilsTypes.to_json
                  {| letsencryptUtilsTypes.Uri :=
                       "https://acme-staging-v02.api.letsencrypt.org/acme/acct/123";
                     letsencryptUtilsTypes.Key :=
                       string_of_list_byte (pem_of world_disk_full sample_der) |})))
         mode_0600 (Some "no space left on device")] /\
    acme.URI account <> EmptyString /\
    "account_credentials.json" = Credentials.accountCredentialsOutPath ops_credentials /\
    Marshal world_disk_full
      (letsencryptUtilsTypes.to_json
         {| letsencryptUtilsTypes.Uri := acme.URI account;
            letsencryptUtilsTypes.Key :=
              string_of_list_byte (pem_of world_disk_full der) |})
      = Ok (list_byte_of_string
              (render
                 (letsencryptUtilsTypes.to_json
                    {| letsencryptUtilsTypes.Uri :=
                         "https://acme-staging-v02.api.letsencrypt.org/acme/acct/123";
                       letsencryptUtilsTypes.Key :=
                         string_of_list_byte (pem_of world_disk_full sample_der) |}))).
Proof.
  assert (H : In (EvWriteFile "account_credentials.json"
        (list_byte_of_string
           (render
              (letsencryptUtilsTypes.to_json
                 {| letsencryptUtilsTypes.Uri :=
                      "https://acme-staging-v02.api.letsencrypt.org/acme/acct/123";
                    letsencryptUtilsTypes.Key :=
                      string_of_list_byte (pem_of world_disk_full sample_der) |})))
        mode_0600 (Some "no space left on device"))
     (trace (Credentials.main world_disk_full ops_credentials))).
  { vm_compute. right. right. left. reflexivity. }
  split; [ exact H | ].
  exact (credentials_write_follows_registration world_disk_full ops_credentials
           _ _ _ _ H).
Defined.
